(** * image-app.py: the calorie-from-image endpoint

    A shallow embedding of [src/image-app.py]: the upload validator
    [input_image_setup], the inference requestor [get_gemini_response] and
    the request handler [count_fruits], with the properties the
    specification states about them.

    Python exceptions are an explicit result type, the uploaded stream and
    the calls made to the two outside libraries (the image decoder and the
    generative model) are threaded through a small state-and-exception
    monad. *)

From Stdlib Require Import List String Ascii ZArith Bool DecimalString.
From Stdlib.Strings Require Import Byte.
Import ListNotations.

Local Open Scope string_scope.

(** ** Python values and exceptions *)

(** The exceptions of class [Exception] the program sees: FastAPI's
    [HTTPException], and every other one, kept as its class name and the
    text [str(e)] gives for it. *)
Inductive exn : Type :=
| HTTPException (status_code : Z) (detail : string)
| PyException (class_name : string) (message : string).

Inductive result (A : Type) : Type :=
| Ok (value : A)
| Raise (e : exn).
Arguments Ok {A} value.
Arguments Raise {A} e.

(** The dict of [input_image_setup]:
    [{"mime_type": uploaded_file.content_type, "data": bytes_data}].
    [UploadFile.content_type] is an optional string. *)
Record ImageUnit : Type := mkImageUnit {
  mime_type : option string;
  data : list byte
}.

(** An element of the list handed to [generate_content]: the prompt is a
    [str], the image is the dict above. *)
Inductive Part : Type :=
| Part_text (s : string)
| Part_blob (u : ImageUnit).

(** What [generate_content] returns; reading its [.text] property may itself
    raise. *)
Record GenerateContentResponse : Type := mkResponse {
  text : result string
}.

Record GenerativeModel : Type := mkModel {
  model_name : string
}.

(** The values the handler returns, as JSON. *)
#[warnings="-register-all"]
Inductive json : Type :=
| JBool (b : bool)
| JStr (s : string)
| JObj (fields : list (string * json)).

(** ** The uploaded stream and the world *)

(** [uploaded_file.file]: a byte stream with a read cursor. *)
Record SpooledFile : Type := mkFile {
  content : list byte;
  position : nat
}.

(** A call that left the process. *)
Inductive event : Type :=
| ImageOpened (stream : list byte)
| ContentGenerated (model : string) (parts : list Part).

Record world : Type := mkWorld {
  upload : SpooledFile;
  trace : list event
}.

(** [UploadFile]: the declared content type; its [.file] is [upload] of the
    world. *)
Record UploadFile : Type := mkUpload {
  content_type : option string
}.

(** The world in which a request carrying [bytes] reaches the handler: the
    stream is at its start and nothing has been called yet. *)
Definition received (bytes : list byte) : world :=
  {| upload := {| content := bytes; position := 0 |}; trace := [] |}.

(** ** State and exceptions *)

Definition M (A : Type) : Type := world -> result A * world.

Definition ret {A} (a : A) : M A := fun w => (Ok a, w).

Definition raise {A} (e : exn) : M A := fun w => (Raise e, w).

Definition bind {A B} (m : M A) (k : A -> M B) : M B :=
  fun w =>
    match m w with
    | (Ok a, w') => k a w'
    | (Raise e, w') => (Raise e, w')
    end.

(** [try: body except ... as e: handler e]. *)
Definition try_except {A} (body : M A) (handler : exn -> M A) : M A :=
  fun w =>
    match body w with
    | (Ok a, w') => (Ok a, w')
    | (Raise e, w') => handler e w'
    end.

Declare Scope py_scope.
Delimit Scope py_scope with py.
Notation "x <- m ;; k" := (bind m (fun x => k))
  (at level 100, m at next level, right associativity) : py_scope.
Notation "m ;; k" := (bind m (fun _ => k))
  (at level 100, right associativity) : py_scope.
Local Open Scope py_scope.

(** [l[i]] for [i >= 0]. *)
Definition getitem {A} (l : list A) (i : nat) : M A :=
  match nth_error l i with
  | Some x => ret x
  | None => raise (PyException "IndexError" "list index out of range")
  end.

(** [x in l] for an optional string and a list of strings. *)
Definition py_in (x : option string) (l : list string) : bool :=
  match x with
  | Some s => existsb (String.eqb s) l
  | None => false
  end.

(** [file.read()]: the bytes from the cursor on; the cursor goes to the end. *)
Definition file_read : M (list byte) :=
  fun w =>
    let f := upload w in
    (Ok (skipn (position f) (content f)),
     {| upload := {| content := content f;
                     position := Nat.max (position f) (List.length (content f)) |};
        trace := trace w |}).

(** [file.seek(n)]. *)
Definition file_seek (n : nat) : M nat :=
  fun w =>
    (Ok n,
     {| upload := {| content := content (upload w); position := n |};
        trace := trace w |}).

(** ** The prompt *)

(** The source's literal is written here with an apostrophe for each double
    quote (it holds no apostrophe of its own); [py_literal] puts the double
    quotes back. *)
Definition dquote : ascii := "034"%char.

Fixpoint py_literal (s : string) : string :=
  match s with
  | EmptyString => EmptyString
  | String c rest =>
      String (if Ascii.eqb c "'"%char then dquote else c) (py_literal rest)
  end.

Definition input_prompt : string := py_literal "
You are an expert nutritionist. Analyze the food items visible in the image and calculate their total calories. 
Respond with a JSON-like database format that includes the following fields:

- id: Unique identifier for the item.
- item_name: The name of the food item.
- quantity: The number of each item visible in the image.
- calories: The calorie count for the given quantity of the item.

Example response format:
{
    'status': 'success',
    'data': [
        {
            'id': 1,
            'name': 'apple',
            'color': 'green',
            'weight': 150,
            'delicious': true
        },
        {
            'id': 2,
            'name': 'banana',
            'color': 'yellow',
            'weight': 116,
            'delicious': true
        },
        {
            'id': 3,
            'name': 'strawberry',
            'color': 'red',
            'weight': 12,
            'delicious': true
        }
    ]
}
".

(** Substring search, for statements about the prompt. *)
Fixpoint starts_with (p s : string) : bool :=
  match p, s with
  | EmptyString, _ => true
  | String a p', String b s' => Ascii.eqb a b && starts_with p' s'
  | String _ _, EmptyString => false
  end.

Fixpoint contains (needle hay : string) : bool :=
  starts_with needle hay
  || match hay with
     | EmptyString => false
     | String _ rest => contains needle rest
     end.

(** [hay.partition(sep)] when [sep] occurs: the text before its first
    occurrence and the text after it. *)
Fixpoint str_partition (sep hay : string) : option (string * string) :=
  if starts_with sep hay
  then Some (EmptyString, substring (String.length sep)
                                    (String.length hay - String.length sep) hay)
  else match hay with
       | EmptyString => None
       | String c rest =>
           match str_partition sep rest with
           | Some (before, after) => Some (String c before, after)
           | None => None
           end
       end.

Definition quoted (s : string) : string :=
  String dquote (s ++ String dquote EmptyString).

(** ** The libraries the program calls *)

(** What the program imports and does not define:
    - [HTTPException_str status detail] is [str(e)] for an [HTTPException];
    - [Image_open f] is PIL's [Image.open] on the stream [f]: it raises or
      returns, and leaves the cursor somewhere ([Image.open] is lazy and only
      reads). It rewinds the stream it is given before it reads, which is
      [Image_open_rewinds]: where the cursor stood makes no difference;
    - [generate_content model parts] is the remote call. *)
Class Libraries : Type := {
  HTTPException_str : Z -> string -> string;
  Image_open : SpooledFile -> result unit * nat;
  Image_open_rewinds : forall stream p,
    Image_open {| content := stream; position := p |} =
    Image_open {| content := stream; position := 0 |};
  generate_content : string -> list Part -> result GenerateContentResponse
}.

Section Service.

Context {L : Libraries}.

(** [str(e)]. *)
Definition str (e : exn) : string :=
  match e with
  | HTTPException status_code detail => HTTPException_str status_code detail
  | PyException _ message => message
  end.

(** [Image.open(uploaded_file.file)]; the image object is dropped. *)
Definition Image_open_file : M unit :=
  fun w =>
    let f := upload w in
    let (r, p) := Image_open f in
    (r,
     {| upload := {| content := content f; position := p |};
        trace := trace w ++ [ImageOpened (content f)] |}).

(** [genai.GenerativeModel(name)] builds a local handle. *)
Definition genai_GenerativeModel (name : string) : GenerativeModel :=
  {| model_name := name |}.

(** [model.generate_content(parts)]. *)
Definition model_generate_content (model : GenerativeModel) (parts : list Part)
  : M GenerateContentResponse :=
  fun w =>
    (generate_content (model_name model) parts,
     {| upload := upload w;
        trace := trace w ++ [ContentGenerated (model_name model) parts] |}).

(** [response.text]. *)
Definition response_text (response : GenerateContentResponse) : M string :=
  fun w => (text response, w).

Definition get_gemini_response (prompt : string) (image_data : list ImageUnit)
  : M string :=
  try_except
    (let model := genai_GenerativeModel "gemini-1.5-flash" in
     image <- getitem image_data 0 ;;
     response <- model_generate_content model [Part_text prompt; Part_blob image] ;;
     response_text response)
    (fun e =>
       raise (HTTPException 500
                ("Error communicating with Gemini API: " ++ str e))).

Definition input_image_setup (uploaded_file : UploadFile)
  : M (list ImageUnit) :=
  try_except
    (bytes_data <- file_read ;;
     Image_open_file ;;
     file_seek 0 ;;
     ret [ {| mime_type := content_type uploaded_file; data := bytes_data |} ])
    (fun e =>
       raise (HTTPException 400 ("Invalid image file: " ++ str e))).

Definition allowed_content_types : list string :=
  ["image/jpeg"; "image/png"; "image/jpg"].

(** The two [except] clauses of [count_fruits], tried in order. *)
Definition count_fruits_except (e : exn) : M json :=
  match e with
  | HTTPException _ _ => raise e
  | _ => raise (HTTPException 500 ("Unexpected error: " ++ str e))
  end.

(** The decoder on [stream] read from its start: whether these bytes are an
    image it accepts. *)
Definition decode (stream : list byte) : result unit * nat :=
  Image_open {| content := stream; position := 0 |}.

(** The body of the [try] of [count_fruits]. *)
Definition count_fruits_try (file : UploadFile) : M json :=
  image_data <- input_image_setup file ;;
  response <- get_gemini_response input_prompt image_data ;;
  ret (JObj [("success", JBool true); ("data", JStr response)]).

Definition count_fruits (file : UploadFile) : M json :=
  if negb (py_in (content_type file) allowed_content_types)
  then raise (HTTPException 400
                "Unsupported file type. Please upload a JPEG or PNG image.")
  else try_except (count_fruits_try file) count_fruits_except.

(** The text the model gives for a request, or what went wrong: the remote
    call followed by the read of [.text]. *)
Definition inference (model : string) (parts : list Part) : result string :=
  match generate_content model parts with
  | Ok response => text response
  | Raise e => Raise e
  end.

End Service.

(** ** The HTTP boundary *)

Record HTTPResponse : Type := mkHTTPResponse {
  status : Z;
  body : json
}.

(** What the framework sends for the outcome of a route declared with
    [response_class=JSONResponse]: the returned value under status 200, an
    [HTTPException] as its status with [{"detail": ...}], anything else as
    the server's own 500. *)
Definition http_response (r : result json) : HTTPResponse :=
  match r with
  | Ok v => {| status := 200; body := v |}
  | Raise (HTTPException status_code detail) =>
      {| status := status_code; body := JObj [("detail", JStr detail)] |}
  | Raise (PyException _ _) =>
      {| status := 500; body := JStr "Internal Server Error" |}
  end.

(** The requests that reached the model, in order. *)
Fixpoint requests_sent (t : list event) : list (list Part) :=
  match t with
  | [] => []
  | ContentGenerated _ parts :: rest => parts :: requests_sent rest
  | ImageOpened _ :: rest => requests_sent rest
  end.

(** The world after [Image.open] was tried on the stream of [w] and left the
    cursor at [p]. *)
Definition opened (w : world) (p : nat) : world :=
  {| upload := {| content := content (upload w); position := p |};
     trace := trace w ++ [ImageOpened (content (upload w))] |}.

(** The world after [parts] went to the model. *)
Definition generated (w : world) (parts : list Part) : world :=
  {| upload := upload w;
     trace := trace w ++ [ContentGenerated "gemini-1.5-flash" parts] |}.

(** ** Sample libraries and uploads

    A decoder that goes by the file signature, an [HTTPException] printed as
    [status: detail], and a model with a fixed answer. *)

Definition png_signature : list byte :=
  [x89; x50; x4e; x47; x0d; x0a; x1a; x0a].

Definition jpeg_signature : list byte := [xff; xd8; xff].

Fixpoint bytes_start_with (p s : list byte) : bool :=
  match p, s with
  | [], _ => true
  | a :: p', b :: s' => Byte.eqb a b && bytes_start_with p' s'
  | _ :: _, [] => false
  end.

Definition signature_open (f : SpooledFile) : result unit * nat :=
  (if bytes_start_with png_signature (content f)
      || bytes_start_with jpeg_signature (content f)
   then Ok tt
   else Raise (PyException "UnidentifiedImageError"
                 "cannot identify image file"),
   Nat.min 16 (List.length (content f))).

Definition status_colon_detail (status_code : Z) (detail : string) : string :=
  NilZero.string_of_int (Z.to_int status_code) ++ ": " ++ detail.

Definition sample_libraries (answer : result GenerateContentResponse)
  : Libraries :=
  {| HTTPException_str := status_colon_detail;
     Image_open := signature_open;
     Image_open_rewinds := fun _ _ => eq_refl;
     generate_content := fun _ _ => answer |}.

Definition answering (t : string) : Libraries :=
  sample_libraries (Ok {| text := Ok t |}).

Definition unreachable_model : Libraries :=
  sample_libraries (Raise (PyException "ServiceUnavailable" "503 unavailable")).

Definition blocked_answer : Libraries :=
  sample_libraries
    (Ok {| text := Raise (PyException "ValueError" "response was blocked") |}).

Definition small_png : list byte := png_signature ++ [x00; x00; x00; x0d].

Definition small_jpeg : list byte := jpeg_signature ++ [xe0; x00; x10].

Definition plain_text : list byte := [x68; x69; x0a].

(** ** The routes and the upload page *)

Inductive http_method : Type := GET | POST.

(** A decorated function: [@app.get(path, response_class=...)] or
    [@app.post(path, response_class=...)] over [def endpoint]. *)
Record Route : Type := mkRoute {
  route_method : http_method;
  route_path : string;
  route_response_class : string;
  route_endpoint : string
}.

Definition app_routes : list Route :=
  [ {| route_method := GET; route_path := "/";
       route_response_class := "HTMLResponse"; route_endpoint := "main" |};
    {| route_method := POST; route_path := "/count_fruits/";
       route_response_class := "JSONResponse";
       route_endpoint := "count_fruits" |} ].

(** The form field [count_fruits] reads its upload from: the name of its
    parameter [file: UploadFile = File(...)]. *)
Definition count_fruits_field : string := "file".

(** [main()]: the page, written like the prompt with an apostrophe for each
    double quote. *)
Definition main : string := py_literal "
    <html>
        <head>
            <title>Fruit Counter</title>
        </head>
        <body>
            <h1>Upload an Image of Fruits</h1>
            <form action='/count_fruits/' enctype='multipart/form-data' method='post'>
                <input name='file' type='file' accept='image/*'>
                <input type='submit'>
            </form>
        </body>
    </html>
    ".

(** How often [needle] starts in [hay]. *)
Fixpoint occurrences (needle hay : string) : nat :=
  (if starts_with needle hay then 1 else 0)
  + match hay with
    | EmptyString => 0
    | String _ rest => occurrences needle rest
    end.

(** * Properties *)

Section Properties.

Context {L : Libraries}.

(** ** How each operation runs *)

Lemma Image_open_after_read w :
  Image_open (upload (snd (file_read w))) = decode (content (upload w)).
Proof. unfold decode; simpl. apply Image_open_rewinds. Qed.

Lemma input_image_setup_accepts uploaded_file w p :
  decode (content (upload w)) = (Ok tt, p) ->
  input_image_setup uploaded_file w =
    (Ok [ {| mime_type := content_type uploaded_file;
             data := skipn (position (upload w)) (content (upload w)) |} ],
     opened w 0).
Proof.
  intros Hopen.
  unfold input_image_setup, try_except, bind, file_read, Image_open_file,
    file_seek, ret, opened; simpl.
  rewrite Image_open_rewinds. fold (decode (content (upload w))).
  rewrite Hopen; reflexivity.
Qed.

Lemma input_image_setup_refuses uploaded_file w e p :
  decode (content (upload w)) = (Raise e, p) ->
  input_image_setup uploaded_file w =
    (Raise (HTTPException 400 ("Invalid image file: " ++ str e)), opened w p).
Proof.
  intros Hopen.
  unfold input_image_setup, try_except, bind, file_read, Image_open_file,
    raise, opened; simpl.
  rewrite Image_open_rewinds. fold (decode (content (upload w))).
  rewrite Hopen; reflexivity.
Qed.

(** The decoder either accepts the stream or raises. *)
Lemma decode_cases (w : world) :
  (exists p, decode (content (upload w)) = (Ok tt, p)) \/
  (exists e p, decode (content (upload w)) = (Raise e, p)).
Proof.
  destruct (decode (content (upload w))) as [[[] | e] p] eqn:Hopen.
  - left; exists p; reflexivity.
  - right; exists e, p; reflexivity.
Qed.

Lemma get_gemini_response_empty prompt w :
  get_gemini_response prompt [] w =
    (Raise (HTTPException 500
       "Error communicating with Gemini API: list index out of range"), w).
Proof. reflexivity. Qed.

Lemma get_gemini_response_returns prompt image rest w t :
  inference "gemini-1.5-flash" [Part_text prompt; Part_blob image] = Ok t ->
  get_gemini_response prompt (image :: rest) w =
    (Ok t, generated w [Part_text prompt; Part_blob image]).
Proof.
  unfold inference, get_gemini_response, try_except, bind, getitem,
    model_generate_content, response_text, generated; simpl.
  destruct (generate_content _ _) as [response | e]; [| discriminate].
  intros ->; reflexivity.
Qed.

Lemma get_gemini_response_fails prompt image rest w e :
  inference "gemini-1.5-flash" [Part_text prompt; Part_blob image] = Raise e ->
  get_gemini_response prompt (image :: rest) w =
    (Raise (HTTPException 500
       ("Error communicating with Gemini API: " ++ str e)),
     generated w [Part_text prompt; Part_blob image]).
Proof.
  unfold inference, get_gemini_response, try_except, bind, getitem,
    model_generate_content, response_text, generated; simpl.
  destruct (generate_content _ _) as [response | e'].
  - intros ->; reflexivity.
  - intros [= ->]; reflexivity.
Qed.

Lemma count_fruits_allowed file w :
  py_in (content_type file) allowed_content_types = true ->
  count_fruits file w = try_except (count_fruits_try file) count_fruits_except w.
Proof. unfold count_fruits; intros ->; reflexivity. Qed.

Lemma count_fruits_invalid file w e p :
  py_in (content_type file) allowed_content_types = true ->
  decode (content (upload w)) = (Raise e, p) ->
  count_fruits file w =
    (Raise (HTTPException 400 ("Invalid image file: " ++ str e)), opened w p).
Proof.
  intros Hin Hopen.
  rewrite (count_fruits_allowed _ _ Hin).
  unfold try_except, count_fruits_try, bind.
  rewrite (input_image_setup_refuses _ _ _ _ Hopen); reflexivity.
Qed.

Lemma requests_sent_app t1 t2 :
  requests_sent (t1 ++ t2) = (requests_sent t1 ++ requests_sent t2)%list.
Proof.
  induction t1 as [| [stream | model parts] t1 IH]; simpl.
  - reflexivity.
  - exact IH.
  - rewrite IH; reflexivity.
Qed.

(** The model's answer to a request, or its failure. *)
Lemma inference_cases model parts :
  (exists t, inference model parts = Ok t) \/
  (exists e, inference model parts = Raise e).
Proof.
  destruct (inference model parts) as [t | e]; [left | right]; eauto.
Qed.

(** Whatever the model does, a call with an image leaves the stream alone and
    adds one request to the trace. *)
Lemma get_gemini_response_world prompt image rest w :
  snd (get_gemini_response prompt (image :: rest) w) =
    generated w [Part_text prompt; Part_blob image].
Proof.
  destruct (inference_cases "gemini-1.5-flash"
              [Part_text prompt; Part_blob image]) as [[t Ht] | [e He]].
  - rewrite (get_gemini_response_returns _ _ rest w _ Ht); reflexivity.
  - rewrite (get_gemini_response_fails _ _ rest w _ He); reflexivity.
Qed.

Lemma fst_decode_ok stream :
  fst (decode stream) = Ok tt ->
  exists p, decode stream = (Ok tt, p).
Proof.
  destruct (decode stream) as [r p]; simpl; intros ->; eauto.
Qed.

Lemma fst_decode_raise stream e :
  fst (decode stream) = Raise e ->
  exists p, decode stream = (Raise e, p).
Proof.
  destruct (decode stream) as [r p]; simpl; intros ->; eauto.
Qed.

(** Validation raises nothing but a 400, inference nothing but a 500. *)
Lemma input_image_setup_raises_400 uploaded_file w e w' :
  input_image_setup uploaded_file w = (Raise e, w') ->
  exists detail, e = HTTPException 400 detail.
Proof.
  destruct (decode_cases w) as [[p Hopen] | [e' [p Hopen]]].
  - rewrite (input_image_setup_accepts uploaded_file _ _ Hopen); discriminate.
  - rewrite (input_image_setup_refuses uploaded_file _ _ _ Hopen).
    intros [= <- _]; eauto.
Qed.

Lemma get_gemini_response_raises_500 prompt image_data w e w' :
  get_gemini_response prompt image_data w = (Raise e, w') ->
  exists detail, e = HTTPException 500 detail.
Proof.
  destruct image_data as [| image rest].
  - rewrite get_gemini_response_empty. intros [= <- _]; eauto.
  - destruct (inference_cases "gemini-1.5-flash"
                [Part_text prompt; Part_blob image]) as [[t Ht] | [e' He]].
    + rewrite (get_gemini_response_returns _ _ rest w _ Ht); discriminate.
    + rewrite (get_gemini_response_fails _ _ rest w _ He).
      intros [= <- _]; eauto.
Qed.

(** What validation returns is a list of one unit, so the handler never
    calls the model without an image. *)
Lemma input_image_setup_returns_one_unit uploaded_file w units w' :
  input_image_setup uploaded_file w = (Ok units, w') ->
  exists unit, units = [unit].
Proof.
  destruct (decode_cases w) as [[p Hopen] | [e [p Hopen]]].
  - rewrite (input_image_setup_accepts uploaded_file _ _ Hopen).
    intros [= <- _]; eauto.
  - rewrite (input_image_setup_refuses uploaded_file _ _ _ Hopen).
    discriminate.
Qed.

(** No exception other than an [HTTPException] leaves the handler. *)
Lemma count_fruits_raises_http file w e w' :
  count_fruits file w = (Raise e, w') ->
  exists status_code detail, e = HTTPException status_code detail.
Proof.
  unfold count_fruits.
  destruct (py_in (content_type file) allowed_content_types); simpl.
  - unfold try_except, count_fruits_try, bind.
    destruct (input_image_setup file w) as [[units | e1] w1] eqn:Hsetup.
    + destruct (get_gemini_response input_prompt units w1)
        as [[t | e2] w2] eqn:Hgemini.
      * discriminate.
      * destruct (get_gemini_response_raises_500 _ _ _ _ _ Hgemini)
          as [detail ->].
        intros [= <- _]; eauto.
    + destruct (input_image_setup_raises_400 _ _ _ _ Hsetup) as [detail ->].
      intros [= <- _]; eauto.
  - intros [= <- _]; eauto.
Qed.

(** ** The validator *)

(** C1. When the decoder accepts the uploaded bytes, [input_image_setup] on
    the upload as received (cursor at the start) returns one image unit whose
    [data] is the uploaded bytes. *)
Theorem input_image_setup_round_trip declared bytes w :
  upload w = {| content := bytes; position := 0 |} ->
  fst (decode bytes) = Ok tt ->
  fst (input_image_setup {| content_type := declared |} w) =
    Ok [ {| mime_type := declared; data := bytes |} ].
Proof.
  intros Hw Hok.
  destruct (fst_decode_ok _ Hok) as [p Hopen].
  assert (Hc : content (upload w) = bytes) by (rewrite Hw; reflexivity).
  rewrite <- Hc in Hopen.
  rewrite (input_image_setup_accepts _ _ _ Hopen).
  rewrite Hw; reflexivity.
Qed.

(** C6. Whenever [input_image_setup] returns, it returns one unit and its
    [mime_type] is the content type the client declared. *)
Theorem input_image_setup_keeps_declared_type uploaded_file w units w' :
  input_image_setup uploaded_file w = (Ok units, w') ->
  map mime_type units = [content_type uploaded_file].
Proof.
  destruct (decode_cases w) as [[p Hopen] | [e [p Hopen]]].
  - rewrite (input_image_setup_accepts uploaded_file _ _ Hopen).
    intros [= <- _]; reflexivity.
  - rewrite (input_image_setup_refuses uploaded_file _ _ _ Hopen).
    discriminate.
Qed.

(** C7. When the decoder accepts the stream, [input_image_setup] leaves the
    cursor at the start and the bytes as they were; the one other trace of
    the call is that the decoder was run once. *)
Theorem input_image_setup_rewinds uploaded_file w :
  fst (decode (content (upload w))) = Ok tt ->
  snd (input_image_setup uploaded_file w) =
    {| upload := {| content := content (upload w); position := 0 |};
       trace := trace w ++ [ImageOpened (content (upload w))] |}.
Proof.
  intros Hok.
  destruct (fst_decode_ok _ Hok) as [p Hopen].
  rewrite (input_image_setup_accepts uploaded_file _ _ Hopen); reflexivity.
Qed.

(** C3. When the decoder raises [e], [input_image_setup] raises a 400 whose
    detail ends with [str e], and the service answers 400: with that detail
    when the declared type is on the allow-list. *)
Theorem invalid_image_is_a_400 uploaded_file w e :
  fst (decode (content (upload w))) = Raise e ->
  fst (input_image_setup uploaded_file w) =
    Raise (HTTPException 400 ("Invalid image file: " ++ str e))
  /\ status (http_response (fst (count_fruits uploaded_file w))) = 400%Z
  /\ (py_in (content_type uploaded_file) allowed_content_types = true ->
      http_response (fst (count_fruits uploaded_file w)) =
        {| status := 400;
           body := JObj [("detail", JStr ("Invalid image file: " ++ str e))] |}).
Proof.
  intros Hraise.
  destruct (fst_decode_raise _ _ Hraise) as [p Hopen].
  split; [| split].
  - rewrite (input_image_setup_refuses uploaded_file _ _ _ Hopen); reflexivity.
  - destruct (py_in (content_type uploaded_file) allowed_content_types) eqn:Hin.
    + rewrite (count_fruits_invalid _ _ _ _ Hin Hopen); reflexivity.
    + unfold count_fruits; rewrite Hin; reflexivity.
  - intros Hin.
    rewrite (count_fruits_invalid _ _ _ _ Hin Hopen); reflexivity.
Qed.

(** ** The inference requestor *)

(** C4. When the model's call or the read of its text raises [e],
    [get_gemini_response] raises one 500 whose detail ends with [str e]; the
    request went out once and the uploaded stream is as it was. *)
Theorem get_gemini_response_wraps_failure prompt image rest w e :
  inference "gemini-1.5-flash" [Part_text prompt; Part_blob image] = Raise e ->
  exists w',
    get_gemini_response prompt (image :: rest) w =
      (Raise (HTTPException 500
         ("Error communicating with Gemini API: " ++ str e)), w')
    /\ requests_sent (trace w') =
         (requests_sent (trace w) ++ [[Part_text prompt; Part_blob image]])%list
    /\ upload w' = upload w.
Proof.
  intros He.
  exists (generated w [Part_text prompt; Part_blob image]).
  split; [| split].
  - exact (get_gemini_response_fails _ _ rest w _ He).
  - unfold generated; simpl. rewrite requests_sent_app; reflexivity.
  - reflexivity.
Qed.

(** C8. Called with an image unit, [get_gemini_response] sends the model one
    request, made of the prompt and the first image unit, whatever the
    model answers. *)
Theorem get_gemini_response_one_request prompt image_data w :
  image_data <> [] ->
  exists image,
    hd_error image_data = Some image
    /\ trace (snd (get_gemini_response prompt image_data w)) =
         (trace w ++
          [ContentGenerated "gemini-1.5-flash"
             [Part_text prompt; Part_blob image]])%list
    /\ requests_sent (trace (snd (get_gemini_response prompt image_data w))) =
         (requests_sent (trace w) ++ [[Part_text prompt; Part_blob image]])%list.
Proof.
  destruct image_data as [| image rest]; [congruence |].
  intros _. exists image.
  rewrite get_gemini_response_world. unfold generated; simpl.
  rewrite requests_sent_app.
  repeat split; reflexivity.
Qed.

(** ** The handler *)

Lemma count_fruits_answers file w p t :
  py_in (content_type file) allowed_content_types = true ->
  decode (content (upload w)) = (Ok tt, p) ->
  inference "gemini-1.5-flash"
    [Part_text input_prompt;
     Part_blob {| mime_type := content_type file;
                  data := skipn (position (upload w)) (content (upload w)) |}]
    = Ok t ->
  fst (count_fruits file w) =
    Ok (JObj [("success", JBool true); ("data", JStr t)]).
Proof.
  intros Hin Hopen Ht.
  rewrite (count_fruits_allowed _ _ Hin).
  unfold try_except, count_fruits_try, bind.
  rewrite (input_image_setup_accepts _ _ _ Hopen).
  rewrite (get_gemini_response_returns _ _ _ _ _ Ht); reflexivity.
Qed.

(** C2. A request whose declared content type is not on the allow-list is
    answered 400 and nothing else happens: the stream is not read, the
    decoder and the model are not called. *)
Theorem count_fruits_rejects_other_types file w :
  py_in (content_type file) allowed_content_types = false ->
  count_fruits file w =
    (Raise (HTTPException 400
       "Unsupported file type. Please upload a JPEG or PNG image."), w)
  /\ status (http_response (fst (count_fruits file w))) = 400%Z.
Proof.
  intros Hin. unfold count_fruits. rewrite Hin. split; reflexivity.
Qed.

(** C5. With an allow-listed type, bytes the decoder accepts and a model that
    answers [t], the handler returns [{"success": true, "data": t}] and the
    service answers 200 with that body. *)
Theorem count_fruits_success file bytes w t :
  py_in (content_type file) allowed_content_types = true ->
  upload w = {| content := bytes; position := 0 |} ->
  fst (decode bytes) = Ok tt ->
  inference "gemini-1.5-flash"
    [Part_text input_prompt;
     Part_blob {| mime_type := content_type file; data := bytes |}] = Ok t ->
  http_response (fst (count_fruits file w)) =
    {| status := 200;
       body := JObj [("success", JBool true); ("data", JStr t)] |}.
Proof.
  intros Hin Hw Hok Ht.
  destruct (fst_decode_ok _ Hok) as [p Hopen].
  assert (Hc : content (upload w) = bytes) by (rewrite Hw; reflexivity).
  assert (Hp : position (upload w) = 0) by (rewrite Hw; reflexivity).
  rewrite <- Hc in Hopen.
  rewrite (count_fruits_answers file w p t Hin Hopen).
  - reflexivity.
  - rewrite Hp, Hc; exact Ht.
Qed.

(** C10. Inside the [try] of the handler, an [HTTPException] is raised again
    as it is and any other exception becomes a 500 "Unexpected error"; the
    400 of a failed validation and the 500 of a failed inference reach the
    client with their own status and detail. *)
Theorem count_fruits_reraises_http file w :
  py_in (content_type file) allowed_content_types = true ->
  (forall e w',
      count_fruits_try file w = (Raise e, w') ->
      count_fruits file w = count_fruits_except e w')
  /\ (forall status_code detail w',
        count_fruits_except (HTTPException status_code detail) w' =
          (Raise (HTTPException status_code detail), w'))
  /\ (forall class_name message w',
        count_fruits_except (PyException class_name message) w' =
          (Raise (HTTPException 500 ("Unexpected error: " ++ message)), w'))
  /\ (forall e w',
        input_image_setup file w = (Raise e, w') ->
        count_fruits file w = (Raise e, w')
        /\ exists detail, e = HTTPException 400 detail)
  /\ (forall image_data w1 e w2,
        input_image_setup file w = (Ok image_data, w1) ->
        get_gemini_response input_prompt image_data w1 = (Raise e, w2) ->
        count_fruits file w = (Raise e, w2)
        /\ exists detail, e = HTTPException 500 detail).
Proof.
  intros Hin.
  rewrite (count_fruits_allowed _ _ Hin).
  split; [| split; [| split; [| split]]].
  - intros e w' Htry. unfold try_except. rewrite Htry; reflexivity.
  - reflexivity.
  - reflexivity.
  - intros e w' Hsetup.
    destruct (input_image_setup_raises_400 _ _ _ _ Hsetup) as [detail ->].
    split; [| eauto].
    unfold try_except, count_fruits_try, bind. rewrite Hsetup; reflexivity.
  - intros image_data w1 e w2 Hsetup Hgemini.
    destruct (get_gemini_response_raises_500 _ _ _ _ _ Hgemini) as [detail ->].
    split; [| eauto].
    unfold try_except, count_fruits_try, bind.
    rewrite Hsetup, Hgemini; reflexivity.
Qed.

End Properties.

(** ** The prompt *)

(** C9. The one prompt string holds two texts: before the line
    "Example response format:" it lists the fields id, item_name, quantity
    and calories; after it, the example uses the keys id, name, color,
    weight and delicious, and none of item_name, quantity, calories. *)
Theorem input_prompt_two_schemas :
  exists described example,
    str_partition "Example response format:" input_prompt
      = Some (described, example)
    /\ forallb (fun f => contains ("- " ++ f ++ ":") described)
         ["id"; "item_name"; "quantity"; "calories"] = true
    /\ forallb (fun f => contains (quoted f ++ ":") example)
         ["id"; "name"; "color"; "weight"; "delicious"] = true
    /\ forallb (fun f => negb (contains f example))
         ["item_name"; "quantity"; "calories"] = true
    /\ forallb (fun f => negb (contains ("- " ++ f ++ ":") described))
         ["name"; "color"; "weight"; "delicious"] = true.
Proof.
  destruct (str_partition "Example response format:" input_prompt)
    as [[described example] |] eqn:Hsplit; [| vm_compute in Hsplit; discriminate].
  exists described, example.
  split; [reflexivity |].
  vm_compute in Hsplit. injection Hsplit as <- <-.
  vm_compute. repeat split.
Qed.

(** ** The properties at sample requests *)

Lemma input_image_setup_round_trip_png :
  fst (@decode (answering "apple: 95 kcal") small_png) = Ok tt
  /\ fst (@input_image_setup (answering "apple: 95 kcal")
            {| content_type := Some "image/png" |} (received small_png)) =
       Ok [ {| mime_type := Some "image/png"; data := small_png |} ].
Proof.
  split; [reflexivity |].
  apply (@input_image_setup_round_trip (answering "apple: 95 kcal")
           (Some "image/png") small_png (received small_png));
    reflexivity.
Defined.

Lemma input_image_setup_keeps_declared_type_jpg :
  map mime_type [ {| mime_type := Some "image/jpg"; data := small_jpeg |} ]
    = [Some "image/jpg"].
Proof.
  apply (@input_image_setup_keeps_declared_type (answering "apple: 95 kcal")
           {| content_type := Some "image/jpg" |} (received small_jpeg)
           [ {| mime_type := Some "image/jpg"; data := small_jpeg |} ]
           (opened (received small_jpeg) 0)).
  reflexivity.
Defined.

Lemma input_image_setup_rewinds_jpeg :
  snd (@input_image_setup (answering "apple: 95 kcal")
         {| content_type := Some "image/jpeg" |} (received small_jpeg)) =
    {| upload := {| content := small_jpeg; position := 0 |};
       trace := [ImageOpened small_jpeg] |}.
Proof.
  apply (@input_image_setup_rewinds (answering "apple: 95 kcal")
           {| content_type := Some "image/jpeg" |} (received small_jpeg)).
  reflexivity.
Defined.

Lemma invalid_image_is_a_400_plain_text :
  fst (@input_image_setup (answering "apple: 95 kcal")
         {| content_type := Some "image/png" |} (received plain_text)) =
    Raise (HTTPException 400 "Invalid image file: cannot identify image file")
  /\ status (http_response
       (fst (@count_fruits (answering "apple: 95 kcal")
               {| content_type := Some "image/png" |} (received plain_text))))
     = 400%Z.
Proof.
  destruct (@invalid_image_is_a_400 (answering "apple: 95 kcal")
              {| content_type := Some "image/png" |} (received plain_text)
              (PyException "UnidentifiedImageError"
                 "cannot identify image file") eq_refl)
    as [Hsetup [Hstatus _]].
  split; [exact Hsetup | exact Hstatus].
Defined.

Lemma get_gemini_response_wraps_failure_unreachable :
  exists w',
    @get_gemini_response unreachable_model input_prompt
      [ {| mime_type := Some "image/png"; data := small_png |} ]
      (opened (received small_png) 0) =
      (Raise (HTTPException 500
         "Error communicating with Gemini API: 503 unavailable"), w')
    /\ requests_sent (trace w') =
         [[Part_text input_prompt;
           Part_blob {| mime_type := Some "image/png"; data := small_png |}]]
    /\ upload w' = {| content := small_png; position := 0 |}.
Proof.
  apply (@get_gemini_response_wraps_failure unreachable_model input_prompt
           {| mime_type := Some "image/png"; data := small_png |} []
           (opened (received small_png) 0)
           (PyException "ServiceUnavailable" "503 unavailable")).
  reflexivity.
Defined.

Lemma get_gemini_response_one_request_png :
  exists image,
    hd_error [ {| mime_type := Some "image/png"; data := small_png |} ]
      = Some image
    /\ trace (snd (@get_gemini_response blocked_answer input_prompt
                     [ {| mime_type := Some "image/png"; data := small_png |} ]
                     (received small_png))) =
         [ContentGenerated "gemini-1.5-flash"
            [Part_text input_prompt; Part_blob image]]
    /\ requests_sent
         (trace (snd (@get_gemini_response blocked_answer input_prompt
                        [ {| mime_type := Some "image/png"; data := small_png |} ]
                        (received small_png)))) =
         [[Part_text input_prompt; Part_blob image]].
Proof.
  apply (@get_gemini_response_one_request blocked_answer input_prompt
           [ {| mime_type := Some "image/png"; data := small_png |} ]
           (received small_png)).
  discriminate.
Defined.

Lemma count_fruits_rejects_text_plain :
  @count_fruits (answering "apple: 95 kcal")
    {| content_type := Some "text/plain" |} (received plain_text) =
    (Raise (HTTPException 400
       "Unsupported file type. Please upload a JPEG or PNG image."),
     received plain_text)
  /\ status (http_response
       (fst (@count_fruits (answering "apple: 95 kcal")
               {| content_type := Some "text/plain" |} (received plain_text))))
     = 400%Z.
Proof.
  apply (@count_fruits_rejects_other_types (answering "apple: 95 kcal")
           {| content_type := Some "text/plain" |} (received plain_text)).
  reflexivity.
Defined.

Lemma count_fruits_success_jpeg :
  http_response
    (fst (@count_fruits (answering "apple: 95 kcal")
            {| content_type := Some "image/jpeg" |} (received small_jpeg))) =
    {| status := 200;
       body := JObj [("success", JBool true);
                     ("data", JStr "apple: 95 kcal")] |}.
Proof.
  apply (@count_fruits_success (answering "apple: 95 kcal")
           {| content_type := Some "image/jpeg" |} small_jpeg
           (received small_jpeg) "apple: 95 kcal");
    reflexivity.
Defined.

Lemma count_fruits_reraises_http_plain_text :
  @count_fruits (answering "apple: 95 kcal")
    {| content_type := Some "image/png" |} (received plain_text) =
    (Raise (HTTPException 400 "Invalid image file: cannot identify image file"),
     opened (received plain_text) 3)
  /\ @count_fruits unreachable_model
       {| content_type := Some "image/png" |} (received small_png) =
       (Raise (HTTPException 500
          "Error communicating with Gemini API: 503 unavailable"),
        generated (opened (received small_png) 0)
          [Part_text input_prompt;
           Part_blob {| mime_type := Some "image/png"; data := small_png |}]).
Proof.
  split.
  - destruct (@count_fruits_reraises_http (answering "apple: 95 kcal")
                {| content_type := Some "image/png" |} (received plain_text)
                eq_refl)
      as [_ [_ [_ [Hsetup _]]]].
    apply (Hsetup _ _ eq_refl).
  - destruct (@count_fruits_reraises_http unreachable_model
                {| content_type := Some "image/png" |} (received small_png)
                eq_refl)
      as [_ [_ [_ [_ Hgemini]]]].
    apply (Hgemini _ _ _ _ eq_refl eq_refl).
Defined.

(** * Further properties of the code *)

Section Coverage.

Context {L : Libraries}.

(** The whole run of the handler, by what was declared, what the decoder
    says of the stream and what the model answers. *)
Lemma count_fruits_run file w :
  count_fruits file w =
    if py_in (content_type file) allowed_content_types
    then
      match decode (content (upload w)) with
      | (Ok _, _) =>
          let parts :=
            [Part_text input_prompt;
             Part_blob {| mime_type := content_type file;
                          data := skipn (position (upload w))
                                    (content (upload w)) |}] in
          (match inference "gemini-1.5-flash" parts with
           | Ok t => Ok (JObj [("success", JBool true); ("data", JStr t)])
           | Raise e =>
               Raise (HTTPException 500
                        ("Error communicating with Gemini API: " ++ str e))
           end,
           generated (opened w 0) parts)
      | (Raise e, p) =>
          (Raise (HTTPException 400 ("Invalid image file: " ++ str e)),
           opened w p)
      end
    else
      (Raise (HTTPException 400
         "Unsupported file type. Please upload a JPEG or PNG image."), w).
Proof.
  destruct (py_in (content_type file) allowed_content_types) eqn:Hin.
  - destruct (decode (content (upload w))) as [[[] | e] p] eqn:Hopen.
    + rewrite (count_fruits_allowed _ _ Hin).
      unfold try_except, count_fruits_try, bind.
      rewrite (input_image_setup_accepts _ _ _ Hopen).
      cbv zeta.
      destruct (inference _ _) as [t | e] eqn:Hinf.
      * rewrite (get_gemini_response_returns _ _ _ _ _ Hinf); reflexivity.
      * rewrite (get_gemini_response_fails _ _ _ _ _ Hinf); reflexivity.
    + exact (count_fruits_invalid _ _ _ _ Hin Hopen).
  - unfold count_fruits; rewrite Hin; reflexivity.
Qed.

Lemma py_in_allowed x :
  py_in x allowed_content_types = true <->
  x = Some "image/jpeg" \/ x = Some "image/png" \/ x = Some "image/jpg".
Proof.
  destruct x as [s |]; simpl.
  - rewrite !orb_true_iff, !String.eqb_eq.
    split.
    + intros [-> | [-> | [-> | H]]]; auto. discriminate.
    + intros [[= ->] | [[= ->] | [= ->]]]; auto.
  - split; [discriminate | intros [H | [H | H]]; discriminate].
Qed.

(** X1. The handler answers with the unsupported-type error exactly when the
    declared content type is none of the three strings image/jpeg, image/png
    and image/jpg, compared as they are written; a request with no content
    type is among the rejected. *)
Theorem count_fruits_unsupported_iff file w :
  fst (count_fruits file w) =
    Raise (HTTPException 400
      "Unsupported file type. Please upload a JPEG or PNG image.")
  <-> ~ (content_type file = Some "image/jpeg"
         \/ content_type file = Some "image/png"
         \/ content_type file = Some "image/jpg").
Proof.
  rewrite <- py_in_allowed, count_fruits_run.
  destruct (py_in (content_type file) allowed_content_types).
  - split; [| intros H; exfalso; apply H; reflexivity].
    destruct (decode (content (upload w))) as [[[] | e] p]; simpl.
    + destruct (inference _ _); discriminate.
    + discriminate.
  - split; [intros _; discriminate | reflexivity].
Qed.

(** X2. A request ends in one of four ways: the success body, the
    unsupported-type 400, a 400 "Invalid image file: ...", or a 500 "Error
    communicating with Gemini API: ...". The handler's "Unexpected error"
    never shows. *)
Theorem count_fruits_outcomes file w :
  (exists t, fst (count_fruits file w) =
               Ok (JObj [("success", JBool true); ("data", JStr t)]))
  \/ fst (count_fruits file w) =
       Raise (HTTPException 400
         "Unsupported file type. Please upload a JPEG or PNG image.")
  \/ (exists e, fst (count_fruits file w) =
                  Raise (HTTPException 400 ("Invalid image file: " ++ str e)))
  \/ (exists e, fst (count_fruits file w) =
                  Raise (HTTPException 500
                    ("Error communicating with Gemini API: " ++ str e))).
Proof.
  rewrite count_fruits_run.
  destruct (py_in (content_type file) allowed_content_types).
  - destruct (decode (content (upload w))) as [[[] | e] p]; simpl.
    + destruct (inference _ _) as [t | e]; [left | right; right; right]; eauto.
    + right; right; left; eauto.
  - right; left; reflexivity.
Qed.

(** X3. A request answered 400 never reaches the model; a request answered
    200 or 500 reached it exactly once, with the fixed prompt and one image
    unit. *)
Theorem count_fruits_requests_by_status file w :
  (status (http_response (fst (count_fruits file w))) = 400%Z ->
   requests_sent (trace (snd (count_fruits file w))) = requests_sent (trace w))
  /\ (status (http_response (fst (count_fruits file w))) <> 400%Z ->
      exists unit,
        requests_sent (trace (snd (count_fruits file w))) =
          (requests_sent (trace w)
           ++ [[Part_text input_prompt; Part_blob unit]])%list).
Proof.
  rewrite count_fruits_run.
  destruct (py_in (content_type file) allowed_content_types).
  - destruct (decode (content (upload w))) as [[[] | e] p]; cbv zeta.
    + split.
      * destruct (inference _ _); simpl; discriminate.
      * intros _. eexists. unfold generated, opened; simpl.
        rewrite !requests_sent_app; simpl. rewrite app_nil_r; reflexivity.
    + split.
      * intros _. unfold opened; simpl.
        rewrite requests_sent_app; simpl. apply app_nil_r.
      * simpl; congruence.
  - split; [reflexivity | simpl; congruence].
Qed.

(** X4. Whatever happens, the handler leaves the uploaded bytes as they
    were, runs the decoder at most once and the model at most once, and the
    model only after the decoder accepted the stream. *)
Theorem count_fruits_effects file w :
  content (upload (snd (count_fruits file w))) = content (upload w)
  /\ exists events,
       trace (snd (count_fruits file w)) = (trace w ++ events)%list
       /\ (events = []
           \/ (events = [ImageOpened (content (upload w))]
               /\ exists e, fst (decode (content (upload w))) = Raise e)
           \/ (fst (decode (content (upload w))) = Ok tt
               /\ exists unit,
                    events =
                      [ImageOpened (content (upload w));
                       ContentGenerated "gemini-1.5-flash"
                         [Part_text input_prompt; Part_blob unit]])).
Proof.
  rewrite count_fruits_run.
  destruct (py_in (content_type file) allowed_content_types).
  - destruct (decode (content (upload w))) as [[[] | e] p]; cbv zeta.
    + split; [reflexivity |].
      eexists; split.
      * unfold generated, opened; simpl. rewrite <- app_assoc; reflexivity.
      * right; right; split; [reflexivity | eexists; reflexivity].
    + split; [reflexivity |].
      eexists; split; [reflexivity |].
      right; left; split; [reflexivity | exists e; reflexivity].
  - split; [reflexivity |].
    exists []; split; [symmetry; apply app_nil_r | left; reflexivity].
Qed.

(** X5. For an allow-listed request the [try]/[except] of the handler
    changes nothing: the handler does what the body of its [try] does, since
    that body raises nothing but an [HTTPException]. *)
Theorem count_fruits_except_never_converts file w :
  py_in (content_type file) allowed_content_types = true ->
  count_fruits file w = count_fruits_try file w.
Proof.
  intros Hin.
  rewrite (count_fruits_allowed _ _ Hin).
  unfold try_except, count_fruits_try, bind.
  destruct (input_image_setup file w) as [[units | e1] w1] eqn:Hsetup.
  - destruct (get_gemini_response input_prompt units w1)
      as [[t | e2] w2] eqn:Hgemini.
    + reflexivity.
    + destruct (get_gemini_response_raises_500 _ _ _ _ _ Hgemini)
        as [detail ->].
      reflexivity.
  - destruct (input_image_setup_raises_400 _ _ _ _ Hsetup) as [detail ->].
    reflexivity.
Qed.

(** X6. With an allow-listed type and bytes the decoder accepts, a failure
    [e] of the model makes the service answer 500 with the detail "Error
    communicating with Gemini API: " followed by [str e]; the upload is left
    rewound with its bytes as they were. *)
Theorem count_fruits_inference_failure file bytes w e :
  py_in (content_type file) allowed_content_types = true ->
  upload w = {| content := bytes; position := 0 |} ->
  fst (decode bytes) = Ok tt ->
  inference "gemini-1.5-flash"
    [Part_text input_prompt;
     Part_blob {| mime_type := content_type file; data := bytes |}]
    = Raise e ->
  http_response (fst (count_fruits file w)) =
    {| status := 500;
       body := JObj [("detail",
                      JStr ("Error communicating with Gemini API: "
                            ++ str e))] |}
  /\ upload (snd (count_fruits file w)) =
       {| content := bytes; position := 0 |}.
Proof.
  intros Hin Hw Hok He.
  destruct w as [f events]; simpl in Hw; subst f.
  rewrite count_fruits_run, Hin.
  cbn [upload content position skipn].
  destruct (decode bytes) as [[[] | e'] p]; [| discriminate].
  cbv zeta. rewrite He. split; reflexivity.
Qed.

(** ** The requestor and the validator at their edges *)

(** X7. Called with an empty list of image units, [get_gemini_response]
    raises a 500 whose detail reports the list index error as a Gemini
    communication error; no request is sent and nothing else changes. *)
Theorem get_gemini_response_without_image prompt w :
  get_gemini_response prompt [] w =
    (Raise (HTTPException 500
       "Error communicating with Gemini API: list index out of range"), w)
  /\ requests_sent (trace (snd (get_gemini_response prompt [] w))) =
       requests_sent (trace w).
Proof. split; reflexivity. Qed.

(** X8. Only the first image unit counts: any further units in the list
    change neither the result nor what is sent. *)
Theorem get_gemini_response_first_unit_only prompt image rest w :
  get_gemini_response prompt (image :: rest) w =
  get_gemini_response prompt [image] w.
Proof.
  destruct (inference_cases "gemini-1.5-flash"
              [Part_text prompt; Part_blob image]) as [[t Ht] | [e He]].
  - rewrite (get_gemini_response_returns _ _ rest w _ Ht).
    rewrite (get_gemini_response_returns _ _ [] w _ Ht); reflexivity.
  - rewrite (get_gemini_response_fails _ _ rest w _ He).
    rewrite (get_gemini_response_fails _ _ [] w _ He); reflexivity.
Qed.

(** X9. The decoder judges the whole stream, but the unit holds only the
    bytes from the cursor on: on a stream already read to its end,
    validation succeeds with empty [data]. *)
Theorem input_image_setup_packages_unread_bytes uploaded_file w :
  fst (decode (content (upload w))) = Ok tt ->
  fst (input_image_setup uploaded_file w) =
    Ok [ {| mime_type := content_type uploaded_file;
            data := skipn (position (upload w)) (content (upload w)) |} ]
  /\ (List.length (content (upload w)) <= position (upload w) ->
      fst (input_image_setup uploaded_file w) =
        Ok [ {| mime_type := content_type uploaded_file; data := [] |} ]).
Proof.
  intros Hok.
  destruct (fst_decode_ok _ Hok) as [p Hopen].
  rewrite (input_image_setup_accepts uploaded_file _ _ Hopen); simpl.
  split; [reflexivity |].
  intros Hend. rewrite (skipn_all2 _ Hend); reflexivity.
Qed.

(** X10. After a successful validation the bytes are all there to be read
    again, wherever the cursor stood before: a [read()] returns the whole
    stream, and a second validation packages the whole stream. *)
Theorem input_image_setup_leaves_bytes_readable uploaded_file w :
  fst (decode (content (upload w))) = Ok tt ->
  fst (file_read (snd (input_image_setup uploaded_file w))) =
    Ok (content (upload w))
  /\ fst (input_image_setup uploaded_file
            (snd (input_image_setup uploaded_file w))) =
       Ok [ {| mime_type := content_type uploaded_file;
               data := content (upload w) |} ].
Proof.
  intros Hok.
  destruct (fst_decode_ok _ Hok) as [p Hopen].
  rewrite (input_image_setup_accepts uploaded_file _ _ Hopen); simpl.
  split; [reflexivity |].
  assert (Hagain : decode (content (upload (opened w 0))) = (Ok tt, p))
    by exact Hopen.
  rewrite (input_image_setup_accepts uploaded_file _ _ Hagain); reflexivity.
Qed.

(** X11. When the decoder raises, the cursor is not put back: the stream
    keeps its bytes and stays where the decoder left it, so a later
    [read()] returns only what follows that place. *)
Theorem input_image_setup_failure_keeps_cursor uploaded_file w e :
  fst (decode (content (upload w))) = Raise e ->
  upload (snd (input_image_setup uploaded_file w)) =
    {| content := content (upload w);
       position := snd (decode (content (upload w))) |}
  /\ fst (file_read (snd (input_image_setup uploaded_file w))) =
       Ok (skipn (snd (decode (content (upload w)))) (content (upload w))).
Proof.
  intros Hraise.
  destruct (fst_decode_raise _ _ Hraise) as [p Hopen].
  rewrite (input_image_setup_refuses uploaded_file _ _ _ Hopen), Hopen.
  split; reflexivity.
Qed.

End Coverage.

(** ** The upload page *)

(** X12. The page [main] returns holds one form; it posts, as multipart
    form data, to the path [count_fruits] is registered on, and its file
    input has the name of the parameter [count_fruits] reads. *)
Theorem main_form_posts_to_count_fruits :
  exists r,
    In r app_routes
    /\ route_method r = POST
    /\ route_endpoint r = "count_fruits"
    /\ contains ("<form action=" ++ quoted (route_path r)
                 ++ " enctype=" ++ quoted "multipart/form-data"
                 ++ " method=" ++ quoted "post" ++ ">") main = true
    /\ contains ("<input name=" ++ quoted count_fruits_field
                 ++ " type=" ++ quoted "file") main = true
    /\ occurrences "<form" main = 1.
Proof.
  eexists; split; [right; left; reflexivity |].
  vm_compute. repeat split.
Qed.

(** ** The further properties at sample requests *)

Lemma count_fruits_except_never_converts_png :
  @count_fruits unreachable_model
    {| content_type := Some "image/png" |} (received small_png) =
  @count_fruits_try unreachable_model
    {| content_type := Some "image/png" |} (received small_png).
Proof.
  apply (@count_fruits_except_never_converts unreachable_model
           {| content_type := Some "image/png" |} (received small_png)).
  reflexivity.
Defined.

Lemma count_fruits_inference_failure_blocked :
  http_response
    (fst (@count_fruits blocked_answer
            {| content_type := Some "image/jpeg" |} (received small_jpeg))) =
    {| status := 500;
       body := JObj [("detail",
                      JStr "Error communicating with Gemini API: response was blocked")] |}
  /\ upload (snd (@count_fruits blocked_answer
                    {| content_type := Some "image/jpeg" |}
                    (received small_jpeg))) =
       {| content := small_jpeg; position := 0 |}.
Proof.
  apply (@count_fruits_inference_failure blocked_answer
           {| content_type := Some "image/jpeg" |} small_jpeg
           (received small_jpeg)
           (PyException "ValueError" "response was blocked"));
    reflexivity.
Defined.

Lemma input_image_setup_packages_unread_bytes_consumed :
  fst (@input_image_setup (answering "apple: 95 kcal")
         {| content_type := Some "image/png" |}
         {| upload := {| content := small_png; position := 12 |};
            trace := [] |}) =
    Ok [ {| mime_type := Some "image/png"; data := [] |} ].
Proof.
  destruct (@input_image_setup_packages_unread_bytes
              (answering "apple: 95 kcal")
              {| content_type := Some "image/png" |}
              {| upload := {| content := small_png; position := 12 |};
                 trace := [] |} eq_refl) as [_ Hend].
  apply Hend. simpl. apply le_n.
Defined.

Lemma input_image_setup_leaves_bytes_readable_consumed :
  fst (file_read
         (snd (@input_image_setup (answering "apple: 95 kcal")
                 {| content_type := Some "image/png" |}
                 {| upload := {| content := small_png; position := 12 |};
                    trace := [] |}))) = Ok small_png
  /\ fst (@input_image_setup (answering "apple: 95 kcal")
            {| content_type := Some "image/png" |}
            (snd (@input_image_setup (answering "apple: 95 kcal")
                    {| content_type := Some "image/png" |}
                    {| upload := {| content := small_png; position := 12 |};
                       trace := [] |}))) =
       Ok [ {| mime_type := Some "image/png"; data := small_png |} ].
Proof.
  apply (@input_image_setup_leaves_bytes_readable (answering "apple: 95 kcal")
           {| content_type := Some "image/png" |}
           {| upload := {| content := small_png; position := 12 |};
              trace := [] |}).
  reflexivity.
Defined.

Lemma input_image_setup_failure_keeps_cursor_plain_text :
  upload (snd (@input_image_setup (answering "apple: 95 kcal")
                 {| content_type := Some "image/png" |}
                 (received plain_text))) =
    {| content := plain_text; position := 3 |}
  /\ fst (file_read
            (snd (@input_image_setup (answering "apple: 95 kcal")
                    {| content_type := Some "image/png" |}
                    (received plain_text)))) = Ok [].
Proof.
  apply (@input_image_setup_failure_keeps_cursor (answering "apple: 95 kcal")
           {| content_type := Some "image/png" |} (received plain_text)
           (PyException "UnidentifiedImageError" "cannot identify image file")).
  reflexivity.
Defined.
